(** * Orange Livebox Play TV media player

    A shallow embedding of
    [homeassistant/components/liveboxplaytv/media_player.py]: the entity
    [LiveboxPlayTvDevice], its periodic [async_update], its command
    methods and its read-only properties.

    Python objects are modelled as follows.
    - The entity's attributes are the fields of the record [Tracker],
      under the names the class gives them.
    - [self._channel_list], a dict from [int] to [str], is a
      [gmap Z string]; the only reader sorts the keys, so the insertion
      order of the dict is not observable.
    - A method is a computation in the monad [M]: it threads the entity
      and the log of device calls, and ends in a returned value or in a
      raised exception.  A raise keeps every assignment made before it.
    - The device client, [pyteleloisirs] and the clock are outside the
      module; they are taken as the answers they give during one call. *)

From stdpp Require Import gmap strings list sorting pretty.

#[local] Open Scope Z_scope.

(** ** Python values *)

(** A value stored in a program dict. *)
Inductive PyVal :=
  | VNone
  | VStr (s : string)
  | VInt (z : Z).

#[global] Instance PyVal_eq_dec : EqDecision PyVal.
Proof. solve_decision. Defined.

(** The program dict returned by the client, in insertion order. *)
Definition Program := list (string * PyVal).

(** [program.get(key)]: the first binding of [key], [None] when absent. *)
Fixpoint py_get (prg : Program) (key : string) : PyVal :=
  match prg with
  | [] => VNone
  | (k, v) :: rest => if decide (k = key) then v else py_get rest key
  end.

(** Truth value of a [str]-or-[None] value: [None] and the empty string
    are false. *)
Definition str_truthy (u : option string) : bool :=
  match u with
  | None => false
  | Some s => bool_decide (s ≠ EmptyString)
  end.

(** Truth value of a dict-or-[None] value: [None] and the empty dict are
    false. *)
Definition dict_truthy (p : option Program) : bool :=
  match p with
  | None => false
  | Some prg => bool_decide (prg ≠ [])
  end.

(** The four state constants of [homeassistant.const] that the module
    uses.  The attribute [_state] holds one of them or [None]. *)
Inductive PlaybackState :=
  | STATE_OFF
  | STATE_ON
  | STATE_PAUSED
  | STATE_PLAYING.

#[global] Instance PlaybackState_eq_dec : EqDecision PlaybackState.
Proof. solve_decision. Defined.

(** ** Exceptions and outcomes *)

Inductive Exn :=
  | ConnectionError      (* requests.ConnectionError *)
  | OtherError.          (* any exception that is not a ConnectionError *)

#[global] Instance Exn_eq_dec : EqDecision Exn.
Proof. solve_decision. Defined.

Inductive Outcome (A : Type) :=
  | Return (a : A)
  | Raise (e : Exn).
Arguments Return {A} a.
Arguments Raise {A} e.

(** ** The device client *)

(** One element of [client.get_channels()]; [index] is the value of
    [int(channel['index'])]. *)
Record Channel := { index : Z; name : string }.

(** A call made on [self._client]. *)
Inductive ClientCall :=
  | CallMediaState
  | CallIsOn
  | CallGetChannels
  | CallChannel
  | CallGetCurrentProgram
  | CallGetCurrentProgramImage (size : Z)
  | CallGetCurrentChannelImage (size : Z)
  | CallTurnOff
  | CallTurnOn
  | CallVolumeUp
  | CallVolumeDown
  | CallMute
  | CallPlayPause
  | CallSetChannel (source : string)
  | CallPlay
  | CallPause
  | CallChannelUp
  | CallChannelDown.

Module Client.
(** What the client answers to each call. *)
Record t := {
  media_state : Outcome (option string);
  is_on : Outcome bool;
  get_channels : Outcome (list Channel);
  channel : Outcome (option string);
  async_get_current_program : Outcome (option Program);
  async_get_current_program_image : Z → Outcome (option string);
  get_current_channel_image : Z → Outcome (option string);
  turn_off : Outcome unit;
  turn_on : Outcome unit;
  volume_up : Outcome unit;
  volume_down : Outcome unit;
  mute : Outcome unit;
  play_pause : Outcome unit;
  set_channel : string → Outcome unit;
  play : Outcome unit;
  pause : Outcome unit;
  channel_up : Outcome unit;
  channel_down : Outcome unit
}.
End Client.

Module pyteleloisirs.
(** The two functions of [pyteleloisirs] the update uses, in seconds,
    [None] when the program has no start or end time. *)
Record t := {
  get_program_duration : Program → option Z;
  get_remaining_time : Program → option Z
}.
End pyteleloisirs.

(** ** The entity *)

Record Tracker := {
  _muted : bool;
  _name : string;
  _current_source : option string;
  _state : option PlaybackState;
  _channel_list : gmap Z string;
  _current_channel : option string;
  _current_program : PyVal;
  _media_duration : option Z;
  _media_remaining_time : option Z;
  _media_image_url : option string;
  _media_last_updated : option Z
}.

(** [__init__], after the client is built. *)
Definition init (name : string) : Tracker := {|
  _muted := false;
  _name := name;
  _current_source := None;
  _state := None;
  _channel_list := ∅;
  _current_channel := None;
  _current_program := VNone;
  _media_duration := None;
  _media_remaining_time := None;
  _media_image_url := None;
  _media_last_updated := None
|}.

(** Attribute assignments [self._x = v]. *)
Definition set_muted (v : bool) (t : Tracker) : Tracker :=
  {| _muted := v; _name := _name t; _current_source := _current_source t;
     _state := _state t; _channel_list := _channel_list t;
     _current_channel := _current_channel t;
     _current_program := _current_program t;
     _media_duration := _media_duration t;
     _media_remaining_time := _media_remaining_time t;
     _media_image_url := _media_image_url t;
     _media_last_updated := _media_last_updated t |}.

Definition set_current_source (v : option string) (t : Tracker) : Tracker :=
  {| _muted := _muted t; _name := _name t; _current_source := v;
     _state := _state t; _channel_list := _channel_list t;
     _current_channel := _current_channel t;
     _current_program := _current_program t;
     _media_duration := _media_duration t;
     _media_remaining_time := _media_remaining_time t;
     _media_image_url := _media_image_url t;
     _media_last_updated := _media_last_updated t |}.

Definition set_state (v : option PlaybackState) (t : Tracker) : Tracker :=
  {| _muted := _muted t; _name := _name t;
     _current_source := _current_source t;
     _state := v; _channel_list := _channel_list t;
     _current_channel := _current_channel t;
     _current_program := _current_program t;
     _media_duration := _media_duration t;
     _media_remaining_time := _media_remaining_time t;
     _media_image_url := _media_image_url t;
     _media_last_updated := _media_last_updated t |}.

Definition set_channel_list (v : gmap Z string) (t : Tracker) : Tracker :=
  {| _muted := _muted t; _name := _name t;
     _current_source := _current_source t;
     _state := _state t; _channel_list := v;
     _current_channel := _current_channel t;
     _current_program := _current_program t;
     _media_duration := _media_duration t;
     _media_remaining_time := _media_remaining_time t;
     _media_image_url := _media_image_url t;
     _media_last_updated := _media_last_updated t |}.

Definition set_current_channel (v : option string) (t : Tracker) : Tracker :=
  {| _muted := _muted t; _name := _name t;
     _current_source := _current_source t;
     _state := _state t; _channel_list := _channel_list t;
     _current_channel := v;
     _current_program := _current_program t;
     _media_duration := _media_duration t;
     _media_remaining_time := _media_remaining_time t;
     _media_image_url := _media_image_url t;
     _media_last_updated := _media_last_updated t |}.

Definition set_current_program (v : PyVal) (t : Tracker) : Tracker :=
  {| _muted := _muted t; _name := _name t;
     _current_source := _current_source t;
     _state := _state t; _channel_list := _channel_list t;
     _current_channel := _current_channel t;
     _current_program := v;
     _media_duration := _media_duration t;
     _media_remaining_time := _media_remaining_time t;
     _media_image_url := _media_image_url t;
     _media_last_updated := _media_last_updated t |}.

Definition set_media_duration (v : option Z) (t : Tracker) : Tracker :=
  {| _muted := _muted t; _name := _name t;
     _current_source := _current_source t;
     _state := _state t; _channel_list := _channel_list t;
     _current_channel := _current_channel t;
     _current_program := _current_program t;
     _media_duration := v;
     _media_remaining_time := _media_remaining_time t;
     _media_image_url := _media_image_url t;
     _media_last_updated := _media_last_updated t |}.

Definition set_media_remaining_time (v : option Z) (t : Tracker) : Tracker :=
  {| _muted := _muted t; _name := _name t;
     _current_source := _current_source t;
     _state := _state t; _channel_list := _channel_list t;
     _current_channel := _current_channel t;
     _current_program := _current_program t;
     _media_duration := _media_duration t;
     _media_remaining_time := v;
     _media_image_url := _media_image_url t;
     _media_last_updated := _media_last_updated t |}.

Definition set_media_image_url (v : option string) (t : Tracker) : Tracker :=
  {| _muted := _muted t; _name := _name t;
     _current_source := _current_source t;
     _state := _state t; _channel_list := _channel_list t;
     _current_channel := _current_channel t;
     _current_program := _current_program t;
     _media_duration := _media_duration t;
     _media_remaining_time := _media_remaining_time t;
     _media_image_url := v;
     _media_last_updated := _media_last_updated t |}.

Definition set_media_last_updated (v : option Z) (t : Tracker) : Tracker :=
  {| _muted := _muted t; _name := _name t;
     _current_source := _current_source t;
     _state := _state t; _channel_list := _channel_list t;
     _current_channel := _current_channel t;
     _current_program := _current_program t;
     _media_duration := _media_duration t;
     _media_remaining_time := _media_remaining_time t;
     _media_image_url := _media_image_url t;
     _media_last_updated := v |}.

(** ** The method monad *)

(** What a method sees and changes: the entity and the calls made on the
    client so far, oldest first. *)
Record World := { self : Tracker; calls : list ClientCall }.

Definition M (A : Type) : Type := World → Outcome A * World.

Definition ret {A} (a : A) : M A := λ w, (Return a, w).

Definition bind {A B} (m : M A) (k : A → M B) : M B :=
  λ w, match m w with
       | (Return a, w') => k a w'
       | (Raise e, w') => (Raise e, w')
       end.

(** A call on the client: logged, then answered. *)
Definition call {A} (c : ClientCall) (answer : Outcome A) : M A :=
  λ w, (answer, {| self := self w; calls := calls w ++ [c] |}).

(** [self._x = v]. *)
Definition assign (f : Tracker → Tracker) : M unit :=
  λ w, (Return tt, {| self := f (self w); calls := calls w |}).

(** Reading [self._x]. *)
Definition read {A} (f : Tracker → A) : M A :=
  λ w, (Return (f (self w)), w).

(** [try: body / except requests.ConnectionError: handler]. *)
Definition try_except_ConnectionError {A} (body handler : M A) : M A :=
  λ w, match body w with
       | (Raise ConnectionError, w') => handler w'
       | r => r
       end.

Declare Scope py_scope.
Delimit Scope py_scope with py.
Notation "x <- c1 ;; c2" := (bind c1 (λ x, c2))
  (at level 100, c1 at next level, right associativity) : py_scope.
Notation "c1 ;; c2" := (bind c1 (λ _, c2))
  (at level 100, right associativity) : py_scope.
Open Scope py_scope.

(** ** The methods of [LiveboxPlayTvDevice] *)

(** The dict [refresh_channel_list] builds: one assignment
    [new_channel_list[int(channel['index'])] = channel['name']] per
    channel, in catalog order, a later one replacing an earlier one with
    the same index. *)
Definition new_channel_list (channels : list Channel) : gmap Z string :=
  foldl (λ (d : gmap Z string) ch, <[index ch := name ch]> d) ∅ channels.

Section Methods.
(** The client's answers, the two [pyteleloisirs] functions and the
    reading of [dt_util.utcnow()] during the call. *)
Variable client : Client.t.
Variable teleloisirs : pyteleloisirs.t.
Variable utcnow : Z.

(** [refresh_state]: [is_on] is asked only when the media state is
    neither ['PLAY'] nor ['PAUSE']. *)
Definition refresh_state : M PlaybackState :=
  state <- call CallMediaState (Client.media_state client);;
  if decide (state = Some "PLAY") then ret STATE_PLAYING
  else if decide (state = Some "PAUSE") then ret STATE_PAUSED
  else
    on <- call CallIsOn (Client.is_on client);;
    ret (if on : bool then STATE_ON else STATE_OFF).

(** [refresh_channel_list]: a new dict filled in catalog order, then
    stored. *)
Definition refresh_channel_list : M unit :=
  channels <- call CallGetChannels (Client.get_channels client);;
  assign (set_channel_list (new_channel_list channels)).

(** The body of the [try] of [async_update]. *)
Definition async_update_try : M unit :=
  st <- refresh_state;;
  assign (set_state (Some st));;
  refresh_channel_list;;
  channel <- call CallChannel (Client.channel client);;
  match channel with
  | None => ret tt
  | Some _ =>
    assign (set_current_channel channel);;
    program <- call CallGetCurrentProgram
                 (Client.async_get_current_program client);;
    (match program with
     | Some prg =>
       current_program <- read _current_program;;
       if dict_truthy program
          && bool_decide (current_program ≠ py_get prg "name")
       then
         assign (set_current_program (py_get prg "name"));;
         assign (set_media_duration
                   (pyteleloisirs.get_program_duration teleloisirs prg));;
         let rtime := pyteleloisirs.get_remaining_time teleloisirs prg in
         media_remaining_time <- read _media_remaining_time;;
         if bool_decide (rtime ≠ media_remaining_time) then
           assign (set_media_remaining_time rtime);;
           assign (set_media_last_updated (Some utcnow))
         else ret tt
       else ret tt
     | None => ret tt
     end);;
    let img_size := 800 in
    prg_img_url <- call (CallGetCurrentProgramImage img_size)
                     (Client.async_get_current_program_image client img_size);;
    if str_truthy prg_img_url then
      assign (set_media_image_url prg_img_url)
    else
      chan_img_url <- call (CallGetCurrentChannelImage img_size)
                        (Client.get_current_channel_image client img_size);;
      assign (set_media_image_url chan_img_url)
  end.

(** [async_update]: the whole body is inside the [try]. *)
Definition async_update : M unit :=
  try_except_ConnectionError async_update_try (assign (set_state None)).

(** *** Commands *)

Definition turn_off : M unit :=
  assign (set_state (Some STATE_OFF));;
  call CallTurnOff (Client.turn_off client).

Definition turn_on : M unit :=
  assign (set_state (Some STATE_ON));;
  call CallTurnOn (Client.turn_on client).

Definition volume_up : M unit :=
  call CallVolumeUp (Client.volume_up client).

Definition volume_down : M unit :=
  call CallVolumeDown (Client.volume_down client).

Definition mute_volume (mute : bool) : M unit :=
  assign (set_muted mute);;
  call CallMute (Client.mute client).

Definition media_play_pause : M unit :=
  call CallPlayPause (Client.play_pause client).

Definition select_source (source : string) : M unit :=
  assign (set_current_source (Some source));;
  call (CallSetChannel source) (Client.set_channel client source).

Definition media_play : M unit :=
  assign (set_state (Some STATE_PLAYING));;
  call CallPlay (Client.play client).

Definition media_pause : M unit :=
  assign (set_state (Some STATE_PAUSED));;
  call CallPause (Client.pause client).

Definition media_next_track : M unit :=
  call CallChannelUp (Client.channel_up client).

Definition media_previous_track : M unit :=
  call CallChannelDown (Client.channel_down client).
End Methods.

(** ** Properties *)

Definition state (t : Tracker) : option PlaybackState := _state t.
Definition is_volume_muted (t : Tracker) : bool := _muted t.
Definition source (t : Tracker) : option string := _current_channel t.
Definition media_image_url (t : Tracker) : option string := _media_image_url t.
Definition media_duration (t : Tracker) : option Z := _media_duration t.
Definition media_position (t : Tracker) : option Z := _media_remaining_time t.
Definition media_position_updated_at (t : Tracker) : option Z :=
  _media_last_updated t.

(** [sorted(d.keys())] on integer keys. *)
Definition sorted_keys (d : gmap Z string) : list Z :=
  merge_sort Z.le (map_to_list d).*1.

(** [source_list]: the names in the order of the sorted keys; [None]
    stands for the [KeyError] of a failed [d[c]]. *)
Definition source_list (t : Tracker) : option (list string) :=
  mapM (λ c, _channel_list t !! c) (sorted_keys (_channel_list t)).

(** Truth value of a value of a program dict: [None], the empty string
    and zero are false. *)
Definition py_truthy (v : PyVal) : bool :=
  match v with
  | VNone => false
  | VStr s => bool_decide (s ≠ EmptyString)
  | VInt z => bool_decide (z ≠ 0)
  end.

(** [str(v)], as ['{}'.format(v)] prints it. *)
Definition py_str (v : PyVal) : string :=
  match v with
  | VNone => "None"
  | VStr s => s
  | VInt z => pretty z
  end.

(** [media_title]: ['{}: {}'.format(channel, program)] when both are
    true, the channel alone when only the channel is, [None] (the end of
    the method is reached) otherwise. *)
Definition media_title (t : Tracker) : option string :=
  match _current_channel t with
  | Some channel =>
    if str_truthy (Some channel) then
      if py_truthy (_current_program t) then
        Some (channel +:+ ": " +:+ py_str (_current_program t))
      else Some channel
    else None
  | None => None
  end.

(** The attributes that describe what is on: the channel list, the
    current channel, the program, its duration and remaining time, the
    image and the time of the last update. *)
Definition session (t : Tracker) :
    gmap Z string * option string * PyVal * option Z * option Z
    * option string * option Z :=
  (_channel_list t, _current_channel t, _current_program t,
   _media_duration t, _media_remaining_time t, _media_image_url t,
   _media_last_updated t).

#[global] Instance ClientCall_eq_dec : EqDecision ClientCall.
Proof. solve_decision. Defined.

(** ** Setting up the platform *)





(** The order of the channels by index. *)
Definition index_le (a b : Channel) : Prop := index a ≤ index b.

#[global] Instance index_le_dec : RelDecision index_le.
Proof. intros a b. unfold index_le. apply _. Defined.

(** The channels of a catalog, sorted by index. *)
Definition channels_by_index (channels : list Channel) : list Channel :=
  merge_sort index_le channels.

(** The defaults of the platform schema. *)
Definition DEFAULT_NAME : string := "Livebox Play TV".

(** ** Which client failures the update meets after the state query *)

(** The calls of the update after the state query, in order: the channel
    catalog, the tuned channel, the current program, the program image
    and, when there is no program image, the channel image.  The
    predicate holds when one of them raises a connection error and the
    calls before it succeed, so that the update reaches it once the state
    query has succeeded. *)
Inductive raises_after_state_query (client : Client.t) : Prop :=
  | raises_in_get_channels :
      Client.get_channels client = Raise ConnectionError →
      raises_after_state_query client
  | raises_in_channel chs :
      Client.get_channels client = Return chs →
      Client.channel client = Raise ConnectionError →
      raises_after_state_query client
  | raises_in_get_current_program chs ch :
      Client.get_channels client = Return chs →
      Client.channel client = Return (Some ch) →
      Client.async_get_current_program client = Raise ConnectionError →
      raises_after_state_query client
  | raises_in_get_current_program_image chs ch prg :
      Client.get_channels client = Return chs →
      Client.channel client = Return (Some ch) →
      Client.async_get_current_program client = Return prg →
      Client.async_get_current_program_image client 800 = Raise ConnectionError →
      raises_after_state_query client
  | raises_in_get_current_channel_image chs ch prg url :
      Client.get_channels client = Return chs →
      Client.channel client = Return (Some ch) →
      Client.async_get_current_program client = Return prg →
      Client.async_get_current_program_image client 800 = Return url →
      str_truthy url = false →
      Client.get_current_channel_image client 800 = Raise ConnectionError →
      raises_after_state_query client.

(** ** Example devices *)

Module Examples.
Definition catalog : list Channel :=
  [ {| index := 2; name := "France 2" |};
    {| index := 1; name := "TF1" |};
    {| index := 3; name := "France 3" |} ].

Definition news : Program := [("name", VStr "News")].
Definition film : Program := [("name", VStr "Film")].

(** A client that answers every query and accepts every command. *)
Definition device (ms : option string) (on : bool) (ch : option string)
    (prg : option Program) (prg_img : option string) : Client.t := {|
  Client.media_state := Return ms;
  Client.is_on := Return on;
  Client.get_channels := Return catalog;
  Client.channel := Return ch;
  Client.async_get_current_program := Return prg;
  Client.async_get_current_program_image := λ _, Return prg_img;
  Client.get_current_channel_image := λ _, Return (Some "http://livebox/tf1.png");
  Client.turn_off := Return tt;
  Client.turn_on := Return tt;
  Client.volume_up := Return tt;
  Client.volume_down := Return tt;
  Client.mute := Return tt;
  Client.play_pause := Return tt;
  Client.set_channel := λ _, Return tt;
  Client.play := Return tt;
  Client.pause := Return tt;
  Client.channel_up := Return tt;
  Client.channel_down := Return tt
|}.

(** The box playing [prg] on TF1, with a program image. *)
Definition playing (prg : Program) : Client.t :=
  device (Some "PLAY") true (Some "TF1") (Some prg)
    (Some "http://livebox/program.png").

(** The box answers the state query, then the connection drops: every
    later query raises a connection error. *)
Definition drops_after_state_query : Client.t := {|
  Client.media_state := Return (Some "PLAY");
  Client.is_on := Return true;
  Client.get_channels := Raise ConnectionError;
  Client.channel := Raise ConnectionError;
  Client.async_get_current_program := Raise ConnectionError;
  Client.async_get_current_program_image := λ _, Raise ConnectionError;
  Client.get_current_channel_image := λ _, Raise ConnectionError;
  Client.turn_off := Raise ConnectionError;
  Client.turn_on := Raise ConnectionError;
  Client.volume_up := Raise ConnectionError;
  Client.volume_down := Raise ConnectionError;
  Client.mute := Raise ConnectionError;
  Client.play_pause := Raise ConnectionError;
  Client.set_channel := λ _, Raise ConnectionError;
  Client.play := Raise ConnectionError;
  Client.pause := Raise ConnectionError;
  Client.channel_up := Raise ConnectionError;
  Client.channel_down := Raise ConnectionError
|}.

(** The box cannot be reached at all. *)
Definition unreachable : Client.t := {|
  Client.media_state := Raise ConnectionError;
  Client.is_on := Raise ConnectionError;
  Client.get_channels := Raise ConnectionError;
  Client.channel := Raise ConnectionError;
  Client.async_get_current_program := Raise ConnectionError;
  Client.async_get_current_program_image := λ _, Raise ConnectionError;
  Client.get_current_channel_image := λ _, Raise ConnectionError;
  Client.turn_off := Raise ConnectionError;
  Client.turn_on := Raise ConnectionError;
  Client.volume_up := Raise ConnectionError;
  Client.volume_down := Raise ConnectionError;
  Client.mute := Raise ConnectionError;
  Client.play_pause := Raise ConnectionError;
  Client.set_channel := λ _, Raise ConnectionError;
  Client.play := Raise ConnectionError;
  Client.pause := Raise ConnectionError;
  Client.channel_up := Raise ConnectionError;
  Client.channel_down := Raise ConnectionError
|}.

(** A program guide: every program lasts 1800 s, [remaining] s are
    reported as remaining. *)
Definition guide (remaining : Z) : pyteleloisirs.t := {|
  pyteleloisirs.get_program_duration := λ _, Some 1800;
  pyteleloisirs.get_remaining_time := λ _, Some remaining
|}.

(** A new entity, before its first update. *)
Definition fresh : World :=
  {| self := init "Livebox Play TV"; calls := [] |}.

(** The entity after a first update at time 100, the box playing the
    news with 900 s reported as remaining. *)
Definition watching_news : World :=
  (async_update (playing news) (guide 900) 100 fresh).2.
End Examples.

(** * Properties of the methods *)

(** ** The monad *)

Lemma bind_Return {A B} (m : M A) (k : A → M B) w a w1 :
  m w = (Return a, w1) → bind m k w = k a w1.
Proof. unfold bind. by intros ->. Qed.

Lemma bind_Raise {A B} (m : M A) (k : A → M B) w e w1 :
  m w = (Raise e, w1) → bind m k w = (Raise e, w1).
Proof. unfold bind. by intros ->. Qed.

(** A [try] whose handler returns lets no connection error through. *)
Lemma try_except_never_raises_ConnectionError {A} (body : M A) f a w :
  (try_except_ConnectionError body (λ w, (Return a, f w)) w).1
  ≠ Raise ConnectionError.
Proof.
  unfold try_except_ConnectionError.
  by destruct (body w) as [[?|[|]] ?].
Qed.

(** ** The state query *)

(** The state query only talks to the client: it leaves the entity as it
    found it. *)
Lemma refresh_state_self client w :
  self (refresh_state client w).2 = self w.
Proof.
  unfold refresh_state, bind, call, ret.
  destruct (Client.media_state client) as [ms|e]; [|done].
  repeat case_decide; [done..|].
  by destruct (Client.is_on client).
Qed.

(** Its outcome does not depend on the entity either. *)
Lemma refresh_state_outcome client w1 w2 :
  (refresh_state client w1).1 = (refresh_state client w2).1.
Proof.
  unfold refresh_state, bind, call, ret.
  destruct (Client.media_state client) as [ms|e]; [|done].
  repeat case_decide; [done..|].
  by destruct (Client.is_on client).
Qed.

(** C5: when the media-state query succeeds, the derived state is PLAYING
    for ['PLAY'] and PAUSED for ['PAUSE'], whatever the power query would
    answer; for any other media state it is ON when the power query
    answers true and OFF when it answers false. *)
Theorem refresh_state_derivation client w ms :
  Client.media_state client = Return ms →
  (ms = Some "PLAY" → (refresh_state client w).1 = Return STATE_PLAYING) ∧
  (ms = Some "PAUSE" → (refresh_state client w).1 = Return STATE_PAUSED) ∧
  (ms ≠ Some "PLAY" → ms ≠ Some "PAUSE" →
     (Client.is_on client = Return true →
        (refresh_state client w).1 = Return STATE_ON) ∧
     (Client.is_on client = Return false →
        (refresh_state client w).1 = Return STATE_OFF)).
Proof.
  intros Hms. unfold refresh_state, bind, call, ret. rewrite Hms.
  repeat split.
  - intros ->. by rewrite decide_True.
  - intros ->. rewrite decide_False by done. by rewrite decide_True.
  - intros Hon. rewrite !decide_False by done. by rewrite Hon.
  - intros Hoff. rewrite !decide_False by done. by rewrite Hoff.
Qed.

(** ** Running the update *)

(** [run_update client w r] names [r] the result of [async_update] from
    [w], unfolds the update in the equation of [r] down to the answers of
    the client, and splits on the outcome of the state query, which stays
    folded. *)
Ltac run_update client w r :=
  cbv zeta;
  let Hr := fresh "Hr" in
  let Hs := fresh "Hs" in
  let E := fresh "E" in
  remember (async_update client _ _ w) as r eqn:Hr;
  unfold async_update, try_except_ConnectionError, async_update_try,
    refresh_channel_list, bind, call, assign, read, ret in Hr;
  pose proof (refresh_state_self client w) as Hs;
  destruct (refresh_state client w) as [[?st|[|]] [?t ?cs]] eqn:E;
  cbn [fst snd self calls] in *; subst.

(** A connection error never leaves [async_update]: the [except] clause
    covers the whole body. *)
Lemma async_update_never_raises_ConnectionError client tl now w :
  (async_update client tl now w).1 ≠ Raise ConnectionError.
Proof. apply try_except_never_raises_ConnectionError. Qed.

(** When the handler runs, what the body assigned before the failing call
    stays assigned; only the state is reset. *)
Lemma async_update_handler client tl now w w1 :
  async_update_try client tl now w = (Raise ConnectionError, w1) →
  async_update client tl now w =
    (Return tt, {| self := set_state None (self w1); calls := calls w1 |}).
Proof.
  intros Hb. unfold async_update, try_except_ConnectionError, assign.
  by rewrite Hb.
Qed.

(** ** The update when the state query fails *)

(** C1: when the state query raises a connection error, the update
    returns normally, the state is [None] (unknown), and the channel
    list, the current channel, the program name, the duration, the
    remaining time, the image url and the time of the last update are the
    ones before the update; so is every other attribute. *)
Theorem async_update_state_query_fails client tl now w :
  (refresh_state client w).1 = Raise ConnectionError →
  let w' := (async_update client tl now w).2 in
  (async_update client tl now w).1 = Return tt ∧
  state (self w') = None ∧
  _channel_list (self w') = _channel_list (self w) ∧
  _current_channel (self w') = _current_channel (self w) ∧
  _current_program (self w') = _current_program (self w) ∧
  _media_duration (self w') = _media_duration (self w) ∧
  _media_remaining_time (self w') = _media_remaining_time (self w) ∧
  _media_image_url (self w') = _media_image_url (self w) ∧
  _media_last_updated (self w') = _media_last_updated (self w) ∧
  self w' = set_state None (self w).
Proof.
  intros Hq. run_update client w r; done.
Qed.

(** ** Connection errors after the state query *)

(** C2, amended: a connection error raised by a client call after the
    state query (catalog, tuned channel, program, program image or
    channel image) is caught like one raised by the state query: the
    update returns normally to the caller and the state is [None]. *)
Theorem async_update_catches_later_errors client tl now w st :
  (refresh_state client w).1 = Return st →
  raises_after_state_query client →
  (async_update client tl now w).1 = Return tt ∧
  state (self (async_update client tl now w).2) = None.
Proof.
  intros Hst Hraise. run_update client w r; try done.
  destruct Hraise as [Hg|chs Hg Hc|chs ch Hg Hc Hp|chs ch prg Hg Hc Hp Hi
                     |chs ch prg url Hg Hc Hp Hi Hu Hl];
    rewrite Hg; try rewrite Hc; try rewrite Hp; try done.
  - rewrite Hi. destruct prg as [prg|]; [|done]. by repeat case_match.
  - rewrite Hi, Hu, Hl. destruct prg as [prg|]; [|done]. by repeat case_match.
Qed.

(** The catalog fetched before a failing tuned-channel query stays
    stored. *)
Lemma async_update_keeps_catalog_on_error client tl now w st chs :
  (refresh_state client w).1 = Return st →
  Client.get_channels client = Return chs →
  Client.channel client = Raise ConnectionError →
  _channel_list (self (async_update client tl now w).2) = new_channel_list chs.
Proof.
  intros Hst Hg Hc. run_update client w r; try done.
  by rewrite Hg, Hc.
Qed.

(** ** The update when no channel is tuned *)

(** C8: when the client reports no tuned channel, the update leaves the
    current channel, the program name, the duration, the remaining time,
    the image url and the time of the last update as they were. *)
Theorem async_update_no_channel client tl now w :
  Client.channel client = Return None →
  let w' := (async_update client tl now w).2 in
  _current_channel (self w') = _current_channel (self w) ∧
  _current_program (self w') = _current_program (self w) ∧
  _media_duration (self w') = _media_duration (self w) ∧
  _media_remaining_time (self w') = _media_remaining_time (self w) ∧
  _media_image_url (self w') = _media_image_url (self w) ∧
  _media_last_updated (self w') = _media_last_updated (self w).
Proof.
  intros Hc. run_update client w r; try done.
  rewrite Hc. by destruct (Client.get_channels client) as [chs|[|]].
Qed.

(** ** The program of the tuned channel *)

Section Program.
Variable client : Client.t.
Variable tl : pyteleloisirs.t.
Variable now : Z.
Variable w : World.

(** The update reaches the program of a tuned channel: the state query
    and the catalog succeed, a channel [ch] is tuned, and the client
    answers the program query with the non-empty dict [prg]. *)
Variables (st : PlaybackState) (chs : list Channel) (ch : string).
Variable prg : Program.
Hypothesis state_ok : (refresh_state client w).1 = Return st.
Hypothesis catalog_ok : Client.get_channels client = Return chs.
Hypothesis tuned : Client.channel client = Return (Some ch).
Hypothesis fetched :
  Client.async_get_current_program client = Return (Some prg).
Hypothesis non_empty : prg ≠ [].

Let w' := (async_update client tl now w).2.
Let rtime := pyteleloisirs.get_remaining_time tl prg.

(** What the update leaves in the four program attributes, whatever the
    image queries answer. *)
Lemma async_update_program_attributes :
  if decide (_current_program (self w) = py_get prg "name") then
    _current_program (self w') = _current_program (self w) ∧
    _media_duration (self w') = _media_duration (self w) ∧
    _media_remaining_time (self w') = _media_remaining_time (self w) ∧
    _media_last_updated (self w') = _media_last_updated (self w)
  else
    _current_program (self w') = py_get prg "name" ∧
    _media_duration (self w') = pyteleloisirs.get_program_duration tl prg ∧
    _media_remaining_time (self w') = rtime ∧
    _media_last_updated (self w') =
      (if decide (rtime = _media_remaining_time (self w))
       then _media_last_updated (self w) else Some now).
Proof using state_ok catalog_ok tuned fetched non_empty.
  subst w' rtime. run_update client w r; try done.
  rewrite catalog_ok, tuned, fetched.
  cbn [dict_truthy]. rewrite (bool_decide_eq_true_2 _ non_empty).
  destruct (Client.async_get_current_program_image client 800)
    as [url|[|]];
    [destruct (str_truthy url);
       [|destruct (Client.get_current_channel_image client 800)
           as [?|[|]]]|..].
  all: repeat first [case_decide | case_bool_decide];
    cbn [andb fst snd self calls] in *; try done.
  all: repeat case_bool_decide; cbn; try done; by repeat split.
Qed.
End Program.

(** C3, amended: with a channel tuned and a program fetched, the
    remaining time is looked at only when the program name changed.  When
    the fetched name differs from the stored one and the fetched
    remaining time differs from the stored one, the stored remaining time
    and the time of the last update are both replaced; when the name is
    the stored one, both stay as they were. *)
Theorem async_update_remaining_time client tl now w st chs ch prg :
  (refresh_state client w).1 = Return st →
  Client.get_channels client = Return chs →
  Client.channel client = Return (Some ch) →
  Client.async_get_current_program client = Return (Some prg) →
  prg ≠ [] →
  let w' := (async_update client tl now w).2 in
  let rtime := pyteleloisirs.get_remaining_time tl prg in
  (py_get prg "name" ≠ _current_program (self w) →
   rtime ≠ _media_remaining_time (self w) →
     _media_remaining_time (self w') = rtime ∧
     _media_last_updated (self w') = Some now) ∧
  (py_get prg "name" = _current_program (self w) →
     _media_remaining_time (self w') = _media_remaining_time (self w) ∧
     _media_last_updated (self w') = _media_last_updated (self w)).
Proof.
  intros Hst Hg Hc Hp Hne.
  pose proof (async_update_program_attributes
                client tl now w st chs ch prg Hst Hg Hc Hp Hne) as H.
  cbv zeta in *. split.
  - intros Hname Hrt. rewrite decide_False in H by done.
    destruct H as (_ & _ & Hr & Hl). by rewrite decide_False in Hl.
  - intros Hname. rewrite decide_True in H by done. tauto.
Qed.

(** C7: with a channel tuned, when the fetched program name differs from
    the stored one while the fetched remaining time is the stored one,
    the duration is the one computed from the fetched program and the
    time of the last update stays as it was. *)
Theorem async_update_new_program_same_remaining
    client tl now w st chs ch prg :
  (refresh_state client w).1 = Return st →
  Client.get_channels client = Return chs →
  Client.channel client = Return (Some ch) →
  Client.async_get_current_program client = Return (Some prg) →
  prg ≠ [] →
  py_get prg "name" ≠ _current_program (self w) →
  pyteleloisirs.get_remaining_time tl prg = _media_remaining_time (self w) →
  let w' := (async_update client tl now w).2 in
  _current_program (self w') = py_get prg "name" ∧
  _media_duration (self w') = pyteleloisirs.get_program_duration tl prg ∧
  _media_last_updated (self w') = _media_last_updated (self w).
Proof.
  intros Hst Hg Hc Hp Hne Hname Hrt.
  pose proof (async_update_program_attributes
                client tl now w st chs ch prg Hst Hg Hc Hp Hne) as H.
  cbv zeta in *. rewrite decide_False in H by done.
  destruct H as (Hn & Hd & _ & Hl). by rewrite decide_True in Hl.
Qed.

(** ** The image *)

(** C9: in an update where every query succeeds and a channel is tuned,
    the stored image url is replaced by the program image of size 800
    when the client has one, and by the channel image of size 800
    otherwise, whatever the program query answered and whatever was
    stored. *)
Theorem async_update_image client tl now w st chs ch prg url :
  (refresh_state client w).1 = Return st →
  Client.get_channels client = Return chs →
  Client.channel client = Return (Some ch) →
  Client.async_get_current_program client = Return prg →
  Client.async_get_current_program_image client 800 = Return url →
  let r := async_update client tl now w in
  (str_truthy url = true →
     r.1 = Return tt ∧ _media_image_url (self r.2) = url) ∧
  (∀ logo, str_truthy url = false →
     Client.get_current_channel_image client 800 = Return logo →
     r.1 = Return tt ∧ _media_image_url (self r.2) = logo).
Proof.
  intros Hst Hg Hc Hp Hi. run_update client w r; try done.
  rewrite Hg, Hc, Hp, Hi. split.
  - intros ->. destruct prg as [prg|]; [|done]. repeat case_match; simplify_eq; by cbn.
  - intros logo -> ->. destruct prg as [prg|]; [|done].
    repeat case_match; simplify_eq; by cbn.
Qed.

(** ** Commands *)

(** C10: each of [turn_off], [turn_on], [media_play], [media_pause] and
    [mute_volume] assigns its attribute before it calls the client: when
    the call raises, the exception reaches the caller and the entity
    holds the assigned value, everything else being as before. *)
Theorem command_assigns_before_call client w e :
  (Client.turn_off client = Raise e →
     (turn_off client w).1 = Raise e ∧
     self (turn_off client w).2 = set_state (Some STATE_OFF) (self w)) ∧
  (Client.turn_on client = Raise e →
     (turn_on client w).1 = Raise e ∧
     self (turn_on client w).2 = set_state (Some STATE_ON) (self w)) ∧
  (Client.play client = Raise e →
     (media_play client w).1 = Raise e ∧
     self (media_play client w).2 = set_state (Some STATE_PLAYING) (self w)) ∧
  (Client.pause client = Raise e →
     (media_pause client w).1 = Raise e ∧
     self (media_pause client w).2 = set_state (Some STATE_PAUSED) (self w)) ∧
  (∀ mute, Client.mute client = Raise e →
     (mute_volume client mute w).1 = Raise e ∧
     self (mute_volume client mute w).2 = set_muted mute (self w)).
Proof.
  unfold turn_off, turn_on, media_play, media_pause, mute_volume,
    bind, call, assign.
  repeat split; cbn [fst snd self]; done.
Qed.

(** The same commands, whatever the client answers. *)
Lemma command_assigns client w :
  self (turn_off client w).2 = set_state (Some STATE_OFF) (self w) ∧
  self (turn_on client w).2 = set_state (Some STATE_ON) (self w) ∧
  self (media_play client w).2 = set_state (Some STATE_PLAYING) (self w) ∧
  self (media_pause client w).2 = set_state (Some STATE_PAUSED) (self w) ∧
  (∀ mute, self (mute_volume client mute w).2 = set_muted mute (self w)).
Proof.
  unfold turn_off, turn_on, media_play, media_pause, mute_volume,
    bind, call, assign.
  by repeat split.
Qed.

(** [select_source] stores the selected source in [_current_source] and
    calls [set_channel]; [_current_channel], which the property [source]
    returns, is not assigned. *)
Lemma select_source_effect client src w :
  self (select_source client src w).2
    = set_current_source (Some src) (self w) ∧
  calls (select_source client src w).2 = calls w ++ [CallSetChannel src] ∧
  source (self (select_source client src w).2) = source (self w).
Proof. unfold select_source, bind, call, assign. by repeat split. Qed.

(** ** The source list *)

(** A list of integers sorted for [≤] and without duplicates is strictly
    ascending. *)
Lemma StronglySorted_le_NoDup_lt (l : list Z) :
  StronglySorted Z.le l → NoDup l → StronglySorted Z.lt l.
Proof.
  induction 1 as [|x l Hl IH Hx]; intros Hnd; [constructor|].
  apply NoDup_cons in Hnd as [Hnotin Hnd].
  constructor; [by apply IH|].
  apply Forall_forall. intros y Hy.
  pose proof (proj1 (Forall_forall _ _) Hx y Hy).
  assert (x ≠ y) by (intros ->; done). lia.
Qed.

(** The sorted keys are exactly the keys of the dict, each once, in
    strictly ascending order. *)
Lemma sorted_keys_ascending (d : gmap Z string) :
  StronglySorted Z.lt (sorted_keys d).
Proof.
  unfold sorted_keys. apply StronglySorted_le_NoDup_lt.
  - apply (StronglySorted_merge_sort Z.le).
  - rewrite merge_sort_Permutation. apply NoDup_fst_map_to_list.
Qed.

Lemma elem_of_sorted_keys (d : gmap Z string) (k : Z) :
  k ∈ sorted_keys d ↔ is_Some (d !! k).
Proof.
  unfold sorted_keys. rewrite merge_sort_Permutation, list_elem_of_fmap.
  split.
  - intros [[k' n] [-> Hin]]. apply elem_of_map_to_list in Hin. by exists n.
  - intros [n Hn]. exists (k, n). split; [done|].
    by apply elem_of_map_to_list.
Qed.

(** C6: whatever channel list is stored, and so whatever the order of the
    catalog it was built from, [source_list] returns a list (no
    [KeyError]): the names of the channels, one per index of the channel
    list, in strictly ascending order of the index. *)
Theorem source_list_sorted_by_index (t : Tracker) :
  ∃ (indexes : list Z) (names : list string),
    source_list t = Some names ∧
    StronglySorted Z.lt indexes ∧
    (∀ k, k ∈ indexes ↔ is_Some (_channel_list t !! k)) ∧
    Forall2 (λ k n, _channel_list t !! k = Some n) indexes names.
Proof.
  assert (is_Some (source_list t)) as [names Hnames].
  { unfold source_list. apply mapM_is_Some, Forall_forall.
    intros k Hk. by apply elem_of_sorted_keys. }
  exists (sorted_keys (_channel_list t)), names.
  split_and!; [done|apply sorted_keys_ascending| |by apply mapM_Some].
  intros k. apply elem_of_sorted_keys.
Qed.

(** The dict built from a catalog holds, under each index, the name of
    the last channel of the catalog with that index. *)
Lemma new_channel_list_snoc (channels : list Channel) (c : Channel) :
  new_channel_list (channels ++ [c])
  = <[index c := name c]> (new_channel_list channels).
Proof. unfold new_channel_list. by rewrite foldl_app. Qed.

Lemma new_channel_list_lookup (channels : list Channel) (k : Z) (n : string) :
  NoDup (index <$> channels) →
  new_channel_list channels !! k = Some n ↔
  {| index := k; name := n |} ∈ channels.
Proof.
  induction channels as [|c channels IH] using rev_ind; intros Hnd.
  { unfold new_channel_list. cbn. rewrite lookup_empty.
    split; [done|]. by intros ?%elem_of_nil. }
  rewrite fmap_app in Hnd. apply NoDup_app in Hnd as (Hnd & Hfresh & _).
  rewrite new_channel_list_snoc, elem_of_app, list_elem_of_singleton.
  destruct (decide (index c = k)) as [<-|Hne].
  - rewrite lookup_insert_eq. split.
    + intros [= <-]. right. by destruct c.
    + intros [Hin|Heq].
      * exfalso. apply (Hfresh (index c)); [|cbn; left].
        apply list_elem_of_fmap. by eexists; split; [|exact Hin].
      * apply (f_equal name) in Heq. cbn in Heq. congruence.
  - rewrite lookup_insert_ne by done. rewrite IH by done.
    split; [by left|]. intros [?|Heq]; [done|].
    apply (f_equal index) in Heq. cbn in Heq. congruence.
Qed.

(** Two catalogs with the same channels in different orders, no index
    given twice, give the same channel list, hence the same source
    list. *)
Lemma new_channel_list_Permutation (chs1 chs2 : list Channel) :
  NoDup (index <$> chs1) → chs1 ≡ₚ chs2 →
  new_channel_list chs1 = new_channel_list chs2.
Proof.
  intros Hnd Hperm. apply map_eq. intros k. apply option_eq. intros n.
  rewrite !new_channel_list_lookup; [by rewrite Hperm|by rewrite <-Hperm|done].
Qed.

Lemma source_list_catalog_order (chs1 chs2 : list Channel) (t : Tracker) :
  NoDup (index <$> chs1) → chs1 ≡ₚ chs2 →
  source_list (set_channel_list (new_channel_list chs1) t)
  = source_list (set_channel_list (new_channel_list chs2) t).
Proof.
  intros Hnd Hperm. unfold source_list. cbn.
  by rewrite (new_channel_list_Permutation chs1 chs2).
Qed.

(** * The properties on the example devices *)

Import Examples.

(** The first update of a new entity: the box plays the news on TF1. *)
Example first_update :
  async_update (playing news) (guide 900) 100 fresh
  = (Return tt,
     {| self := {|
          _muted := false;
          _name := "Livebox Play TV";
          _current_source := None;
          _state := Some STATE_PLAYING;
          _channel_list := new_channel_list catalog;
          _current_channel := Some "TF1";
          _current_program := VStr "News";
          _media_duration := Some 1800;
          _media_remaining_time := Some 900;
          _media_image_url := Some "http://livebox/program.png";
          _media_last_updated := Some 100 |};
        calls := [CallMediaState; CallGetChannels; CallChannel;
                  CallGetCurrentProgram; CallGetCurrentProgramImage 800] |}).
Proof. reflexivity. Qed.

(** The catalog lists France 2 before TF1; the source list does not. *)
Example source_list_watching_news :
  source_list (self watching_news) = Some ["TF1"; "France 2"; "France 3"].
Proof. vm_compute. reflexivity. Qed.

(** The box cannot be reached while the news are on: the update returns
    and only the state changes. *)
Lemma async_update_state_query_fails_witness :
  (refresh_state unreachable watching_news).1 = Raise ConnectionError ∧
  (async_update unreachable (guide 800) 200 watching_news).1 = Return tt ∧
  self (async_update unreachable (guide 800) 200 watching_news).2
  = set_state None (self watching_news).
Proof.
  split; [reflexivity|].
  destruct (async_update_state_query_fails unreachable (guide 800) 200
              watching_news) as (Hret & _ & _ & _ & _ & _ & _ & _ & _ & Hself);
    [reflexivity|].
  exact (conj Hret Hself).
Defined.

(** The box reports ['PLAY']: the derived state is PLAYING. *)
Lemma refresh_state_derivation_witness :
  Client.media_state (playing news) = Return (Some "PLAY") ∧
  (refresh_state (playing news) fresh).1 = Return STATE_PLAYING.
Proof.
  split; [reflexivity|].
  destruct (refresh_state_derivation (playing news) fresh (Some "PLAY"))
    as (Hplay & _); [reflexivity|].
  apply Hplay. reflexivity.
Defined.

(** The box reports no tuned channel after the news were on: the stored
    channel and the time of the last update stay. *)
Lemma async_update_no_channel_witness :
  let box := device (Some "PAUSE") true None None None in
  Client.channel box = Return None ∧
  _current_channel (self (async_update box (guide 800) 200 watching_news).2)
  = Some "TF1" ∧
  _media_last_updated (self (async_update box (guide 800) 200 watching_news).2)
  = Some 100.
Proof.
  intros box. split; [reflexivity|].
  destruct (async_update_no_channel box (guide 800) 200 watching_news)
    as (Hch & _ & _ & _ & _ & Hupd); [reflexivity|].
  split; [exact Hch|exact Hupd].
Defined.

(** The box cannot be reached: [turn_off] and [mute_volume] raise, and
    the entity is off and muted all the same. *)
Lemma command_assigns_before_call_witness :
  Client.turn_off unreachable = Raise ConnectionError ∧
  (turn_off unreachable watching_news).1 = Raise ConnectionError ∧
  state (self (turn_off unreachable watching_news).2) = Some STATE_OFF ∧
  Client.mute unreachable = Raise ConnectionError ∧
  (mute_volume unreachable true watching_news).1 = Raise ConnectionError ∧
  is_volume_muted (self (mute_volume unreachable true watching_news).2) = true.
Proof.
  destruct (command_assigns_before_call unreachable watching_news
              ConnectionError) as (Hoff & _ & _ & _ & Hmute).
  destruct Hoff as [Hoff1 Hoff2]; [reflexivity|].
  destruct (Hmute true) as [Hmute1 Hmute2]; [reflexivity|].
  split_and!; [reflexivity|exact Hoff1|by rewrite Hoff2
              |reflexivity|exact Hmute1|by rewrite Hmute2].
Defined.

(** C2 as stated fails: the state query succeeds, the catalog query
    raises a connection error, and the update does not raise it to its
    caller; it returns, with the state unknown. *)
Lemma async_update_returns_when_catalog_unreachable :
  (refresh_state drops_after_state_query watching_news).1
    = Return STATE_PLAYING ∧
  Client.get_channels drops_after_state_query = Raise ConnectionError ∧
  (async_update drops_after_state_query (guide 800) 200 watching_news).1
    ≠ Raise ConnectionError ∧
  (async_update drops_after_state_query (guide 800) 200 watching_news).1
    = Return tt ∧
  state (self (async_update drops_after_state_query (guide 800) 200
                 watching_news).2) = None.
Proof. by split_and!. Qed.

(** The connection drops after the state query: the update returns with
    the state unknown. *)
Lemma async_update_catches_later_errors_witness :
  (refresh_state drops_after_state_query watching_news).1
    = Return STATE_PLAYING ∧
  raises_after_state_query drops_after_state_query ∧
  (async_update drops_after_state_query (guide 800) 200 watching_news).1
    = Return tt ∧
  state (self (async_update drops_after_state_query (guide 800) 200
                 watching_news).2) = None.
Proof.
  assert (raises_after_state_query drops_after_state_query) as Hraise
    by (apply raises_in_get_channels; reflexivity).
  split; [reflexivity|]. split; [exact Hraise|].
  apply (async_update_catches_later_errors drops_after_state_query
           (guide 800) 200 watching_news STATE_PLAYING);
    [reflexivity|exact Hraise].
Defined.

(** C3 as stated fails: the news go on, 800 s are now reported as
    remaining instead of the stored 900 s, and the update at time 200
    keeps the stored remaining time and the stored time of the last
    update. *)
Lemma remaining_time_kept_while_program_name_unchanged :
  let w' := (async_update (playing news) (guide 800) 200 watching_news).2 in
  Client.channel (playing news) = Return (Some "TF1") ∧
  Client.async_get_current_program (playing news) = Return (Some news) ∧
  py_get news "name" = _current_program (self watching_news) ∧
  pyteleloisirs.get_remaining_time (guide 800) news
    ≠ _media_remaining_time (self watching_news) ∧
  _media_remaining_time (self w')
    ≠ pyteleloisirs.get_remaining_time (guide 800) news ∧
  _media_last_updated (self w') ≠ Some 200 ∧
  _media_remaining_time (self w') = Some 900 ∧
  _media_last_updated (self w') = Some 100.
Proof. by split_and!. Qed.

(** A film follows the news and 800 s are reported as remaining: both
    the remaining time and the time of the last update are replaced. *)
Lemma async_update_remaining_time_witness :
  let w' := (async_update (playing film) (guide 800) 200 watching_news).2 in
  py_get film "name" ≠ _current_program (self watching_news) ∧
  pyteleloisirs.get_remaining_time (guide 800) film
    ≠ _media_remaining_time (self watching_news) ∧
  _media_remaining_time (self w') = Some 800 ∧
  _media_last_updated (self w') = Some 200.
Proof.
  intros w'.
  assert (py_get film "name" ≠ _current_program (self watching_news))
    as Hname by done.
  assert (pyteleloisirs.get_remaining_time (guide 800) film
          ≠ _media_remaining_time (self watching_news)) as Hrt by done.
  split; [exact Hname|]. split; [exact Hrt|].
  destruct (async_update_remaining_time (playing film) (guide 800) 200
              watching_news STATE_PLAYING catalog "TF1" film)
    as [Hnew _]; [reflexivity..|done|].
  exact (Hnew Hname Hrt).
Defined.

(** A film follows the news and 900 s are again reported as remaining:
    the duration is the film's, the time of the last update stays. *)
Lemma async_update_new_program_same_remaining_witness :
  let w' := (async_update (playing film) (guide 900) 200 watching_news).2 in
  py_get film "name" ≠ _current_program (self watching_news) ∧
  pyteleloisirs.get_remaining_time (guide 900) film
    = _media_remaining_time (self watching_news) ∧
  _current_program (self w') = VStr "Film" ∧
  _media_duration (self w') = Some 1800 ∧
  _media_last_updated (self w') = Some 100.
Proof.
  intros w'. split; [done|]. split; [reflexivity|].
  apply (async_update_new_program_same_remaining (playing film) (guide 900)
           200 watching_news STATE_PLAYING catalog "TF1" film);
    [reflexivity..|done|done|reflexivity].
Defined.

(** The box has no program image: the channel image replaces the stored
    program image. *)
Lemma async_update_image_witness :
  let box := device None true (Some "TF1") (Some news) None in
  let r := async_update box (guide 900) 200 watching_news in
  Client.async_get_current_program_image box 800 = Return None ∧
  Client.get_current_channel_image box 800
    = Return (Some "http://livebox/tf1.png") ∧
  _media_image_url (self watching_news) = Some "http://livebox/program.png" ∧
  r.1 = Return tt ∧
  _media_image_url (self r.2) = Some "http://livebox/tf1.png".
Proof.
  intros box r. split_and!; [reflexivity..| |].
  all: destruct (async_update_image box (guide 900) 200 watching_news
                   STATE_ON catalog "TF1" (Some news) None)
         as [_ Hlogo]; [reflexivity..|];
       destruct (Hlogo (Some "http://livebox/tf1.png"))
         as [Hret Himg]; [reflexivity..|]; [exact Hret || exact Himg].
Defined.

(** C4: selecting France 2 while TF1 is tuned calls [set_channel] and
    stores the selection in [_current_source]; the property [source]
    still returns TF1. *)
Theorem select_source_keeps_source_property :
  let w' := (select_source (playing news) "France 2" watching_news).2 in
  (select_source (playing news) "France 2" watching_news).1 = Return tt ∧
  calls w' = calls watching_news ++ [CallSetChannel "France 2"] ∧
  _current_source (self w') = Some "France 2" ∧
  source (self watching_news) = Some "TF1" ∧
  source (self w') = Some "TF1" ∧
  source (self w') ≠ Some "France 2".
Proof.
  cbv zeta.
  destruct (select_source_effect (playing news) "France 2" watching_news)
    as (Hself & Hcalls & Hsource).
  split_and!.
  - reflexivity.
  - exact Hcalls.
  - by rewrite Hself.
  - reflexivity.
  - rewrite Hsource. reflexivity.
  - rewrite Hsource. vm_compute. discriminate.
Qed.

(** * Further properties *)

(** ** Commands and the entity *)

(** [volume_up], [volume_down], [media_play_pause], [media_next_track]
    and [media_previous_track] leave every attribute of the entity as it
    was, the state included; each makes its one call on the client, and
    ends as that call ends. *)
Lemma passthrough_commands client w :
  volume_up client w
    = (Client.volume_up client,
       {| self := self w; calls := calls w ++ [CallVolumeUp] |}) ∧
  volume_down client w
    = (Client.volume_down client,
       {| self := self w; calls := calls w ++ [CallVolumeDown] |}) ∧
  media_play_pause client w
    = (Client.play_pause client,
       {| self := self w; calls := calls w ++ [CallPlayPause] |}) ∧
  media_next_track client w
    = (Client.channel_up client,
       {| self := self w; calls := calls w ++ [CallChannelUp] |}) ∧
  media_previous_track client w
    = (Client.channel_down client,
       {| self := self w; calls := calls w ++ [CallChannelDown] |}).
Proof. by split_and!. Qed.

(** No command changes what is on: after each of the eleven commands the
    channel list, the current channel, the program, the duration, the
    remaining time, the image and the time of the last update are the
    ones before, whatever the client answers; so are the source list and
    the title. *)
Theorem commands_keep_session client w :
  let kept (r : Outcome unit * World) :=
    session (self r.2) = session (self w) ∧
    source_list (self r.2) = source_list (self w) ∧
    media_title (self r.2) = media_title (self w) in
  kept (turn_off client w) ∧ kept (turn_on client w) ∧
  kept (volume_up client w) ∧ kept (volume_down client w) ∧
  (∀ mute, kept (mute_volume client mute w)) ∧
  kept (media_play_pause client w) ∧
  (∀ src, kept (select_source client src w)) ∧
  kept (media_play client w) ∧ kept (media_pause client w) ∧
  kept (media_next_track client w) ∧ kept (media_previous_track client w).
Proof.
  cbv zeta.
  unfold turn_off, turn_on, volume_up, volume_down, mute_volume,
    media_play_pause, select_source, media_play, media_pause,
    media_next_track, media_previous_track, bind, call, assign.
  by split_and!.
Qed.

(** ** What the update leaves alone *)

(** [run_update_in client w r Hr] is [run_update] that keeps the result
    of the update under the name [r], with its equation [Hr]. *)
Ltac run_update_in client w r Hr :=
  cbv zeta;
  let Hs := fresh "Hs" in
  let E := fresh "E" in
  let t0 := fresh "t" in
  remember (async_update client _ _ w) as r eqn:Hr;
  unfold async_update, try_except_ConnectionError, async_update_try,
    refresh_channel_list, bind, call, assign, read, ret in Hr;
  pose proof (refresh_state_self client w) as Hs;
  destruct (refresh_state client w) as [[?st|[|]] [t0 ?cs]] eqn:E;
  cbn [fst snd self calls] in Hs, Hr; subst t0.

(** The update never touches the mute flag, the name or the selected
    source, whatever the client answers and however the update ends. *)
Theorem async_update_keeps_mute_and_name client tl now w :
  let w' := (async_update client tl now w).2 in
  _muted (self w') = _muted (self w) ∧
  _name (self w') = _name (self w) ∧
  _current_source (self w') = _current_source (self w).
Proof.
  run_update_in client w r Hr; repeat case_match; by simplify_eq.
Qed.

(** ** The calls of the update *)

(** The state query asks the media state, and the power only when the
    media state is neither ['PLAY'] nor ['PAUSE']. *)
Lemma refresh_state_calls client w :
  ∃ l, calls (refresh_state client w).2 = calls w ++ l ∧
       (l = [CallMediaState] ∨ l = [CallMediaState; CallIsOn]) ∧
       (CallIsOn ∈ l ↔
        ∃ ms, Client.media_state client = Return ms ∧
              ms ≠ Some "PLAY" ∧ ms ≠ Some "PAUSE").
Proof.
  assert (CallIsOn ∉ [CallMediaState]) as Hnotin
    by (by intros ?%list_elem_of_singleton).
  unfold refresh_state, bind, call, ret.
  destruct (Client.media_state client) as [ms|e]; cbn.
  - destruct (decide (ms = Some "PLAY")) as [->|Hplay];
      [|destruct (decide (ms = Some "PAUSE")) as [->|Hpause]].
    + exists [CallMediaState]. split_and!; [done|by left|].
      split; [done|]. by intros (ms & [= <-] & ? & ?).
    + exists [CallMediaState]. split_and!; [done|by left|].
      split; [done|]. by intros (ms & [= <-] & ? & ?).
    + exists [CallMediaState; CallIsOn]. split_and!; [|by right|].
      * destruct (Client.is_on client); cbn; by rewrite <-(assoc_L (++)).
      * split; [by exists ms|]. intros _. set_solver.
  - exists [CallMediaState]. split_and!; [done|by left|].
    split; [done|]. by intros (ms & [=] & _).
Qed.

Ltac sublist_of_queries :=
  repeat first [ apply sublist_nil | apply sublist_skip | apply sublist_cons ].

(** One update only asks: the calls it adds to the log are, in this
    order and each at most once, the media state, the power, the
    channels, the tuned channel, the current program, the program image
    of size 800 and the channel image of size 800.  It sends no command,
    however it ends. *)
Theorem async_update_only_queries client tl now w :
  ∃ l, calls (async_update client tl now w).2 = calls w ++ l ∧
       l `sublist_of`
         [CallMediaState; CallIsOn; CallGetChannels; CallChannel;
          CallGetCurrentProgram; CallGetCurrentProgramImage 800;
          CallGetCurrentChannelImage 800].
Proof.
  destruct (refresh_state_calls client w) as (l0 & Hl0 & Hcases & _).
  run_update_in client w r Hr; cbn [snd calls] in Hl0; subst cs.
  all: repeat case_match; simplify_eq; cbn [snd calls].
  all: rewrite <-?(assoc_L (++)); eexists; split; [reflexivity|].
  all: destruct Hcases as [-> | ->]; cbn [app]; sublist_of_queries.
Qed.

(** The power is asked exactly when the media state was answered and is
    neither ['PLAY'] nor ['PAUSE']; the channel image is asked only when
    the client answered the program image query with nothing usable. *)
Theorem async_update_conditional_queries client tl now w l :
  calls (async_update client tl now w).2 = calls w ++ l →
  (CallIsOn ∈ l ↔
   ∃ ms, Client.media_state client = Return ms ∧
         ms ≠ Some "PLAY" ∧ ms ≠ Some "PAUSE") ∧
  (CallGetCurrentChannelImage 800 ∈ l →
   ∃ url, Client.async_get_current_program_image client 800 = Return url ∧
          str_truthy url = false).
Proof.
  destruct (refresh_state_calls client w) as (l0 & Hl0 & Hcases & <-).
  assert (CallGetCurrentChannelImage 800 ∉ l0) as Hnot0
    by (destruct Hcases as [-> | ->]; set_solver).
  run_update_in client w r Hr; cbn [snd calls] in Hl0; subst cs.
  all: intros Hl; repeat case_match; simplify_eq; cbn [snd calls] in Hl.
  all: rewrite <-?(assoc_L (++)) in Hl; apply (inj (app _)) in Hl as <-.
  all: split; [set_solver|].
  all: try (intros Hin; exfalso; set_solver).
  all: intros _; by eexists.
Qed.

(** ** What the update stores on the way *)

(** The indexes of the dict built from a catalog are the indexes of the
    catalog. *)
Lemma new_channel_list_is_Some (channels : list Channel) (k : Z) :
  is_Some (new_channel_list channels !! k) ↔ k ∈ index <$> channels.
Proof.
  induction channels as [|c channels IH] using rev_ind.
  { unfold new_channel_list. cbn. rewrite lookup_empty.
    split; [by intros [? ?]|by intros ?%elem_of_nil]. }
  rewrite new_channel_list_snoc, fmap_app, elem_of_app. cbn.
  rewrite list_elem_of_singleton.
  destruct (decide (index c = k)) as [<-|Hne].
  - rewrite lookup_insert_eq. split; [by right|by eexists].
  - rewrite lookup_insert_ne by done. rewrite IH. naive_solver.
Qed.

(** Under an index, the dict holds the name of the last channel of the
    catalog with that index. *)
Theorem new_channel_list_last_wins (before after : list Channel) (c : Channel) :
  (∀ c', c' ∈ after → index c' ≠ index c) →
  new_channel_list (before ++ c :: after) !! index c = Some (name c).
Proof.
  induction after as [|c' after IH] using rev_ind; intros Hlater.
  - by rewrite new_channel_list_snoc, lookup_insert_eq.
  - rewrite app_comm_cons, (assoc_L (++)), new_channel_list_snoc.
    rewrite lookup_insert_ne by (apply Hlater; set_solver).
    apply IH. intros c'' Hin. apply Hlater. set_solver.
Qed.

(** Once the state query and the catalog query have succeeded, the
    stored channel list is the one built from this catalog alone (the
    stored indexes are the catalog's, older entries are gone), and a
    tuned channel reported by the client is the stored current channel:
    whatever the later queries answer, and whether the update returns or
    raises. *)
Theorem async_update_stores_catalog_and_channel client tl now w st chs :
  (refresh_state client w).1 = Return st →
  Client.get_channels client = Return chs →
  let w' := (async_update client tl now w).2 in
  _channel_list (self w') = new_channel_list chs ∧
  (∀ k, is_Some (_channel_list (self w') !! k) ↔ k ∈ index <$> chs) ∧
  (∀ ch, Client.channel client = Return (Some ch) →
         source (self w') = Some ch).
Proof.
  intros Hst Hg. cbv zeta.
  assert (_channel_list (self (async_update client tl now w).2)
          = new_channel_list chs ∧
          (∀ ch, Client.channel client = Return (Some ch) →
                 source (self (async_update client tl now w).2) = Some ch))
    as [Hlist Hsource].
  { run_update_in client w r Hr; try done. rewrite Hg in Hr.
    split; [|intros ch Hch; rewrite Hch in Hr];
      repeat case_match; by simplify_eq. }
  split_and!; [done| |done].
  intros k. rewrite Hlist. apply new_channel_list_is_Some.
Qed.

(** ** Updating twice *)

(** The state query is the same computation from every entity: one
    outcome, and the same calls added to the log. *)
Lemma refresh_state_frame client :
  ∃ o l, ∀ w, refresh_state client w
              = (o, {| self := self w; calls := calls w ++ l |}).
Proof.
  unfold refresh_state, bind, call, ret.
  destruct (Client.media_state client) as [ms|e]; cbn.
  - repeat case_decide; [by eexists _, _..|].
    destruct (Client.is_on client); cbn; eexists _, _; intros w;
      by rewrite <-(assoc_L (++)).
  - by eexists _, _.
Qed.

(** Unfolding the update where it stands, and reducing the attribute
    reads and writes on known records. *)
Ltac unfold_update :=
  unfold async_update, try_except_ConnectionError, async_update_try,
    refresh_channel_list, bind, call, assign, read, ret.

Ltac shrink :=
  cbv [fst snd self calls
       set_state set_channel_list set_current_channel set_current_program
       set_media_duration set_media_remaining_time set_media_image_url
       set_media_last_updated
       _muted _name _current_source _state _channel_list _current_channel
       _current_program _media_duration _media_remaining_time
       _media_image_url _media_last_updated] in *.

(** Updating again while the client answers the same changes nothing:
    the second update leaves every attribute as the first one left it
    and ends as the first one ended, whatever the program guide and the
    clock say the second time. *)
Theorem async_update_twice client tl1 now1 tl2 now2 w :
  let r1 := async_update client tl1 now1 w in
  self (async_update client tl2 now2 r1.2).2 = self r1.2 ∧
  (async_update client tl2 now2 r1.2).1 = r1.1.
Proof.
  cbv zeta. destruct (refresh_state_frame client) as (o & l & Hf).
  destruct w as [t cs]. destruct t as [mu nm src sta chl cch cpr dur rem img upd].
  unfold_update. rewrite !Hf. shrink.
  destruct o as [st|[|]]; shrink; [|done..].
  destruct (Client.get_channels client) as [chs|[|]]; shrink; [|done..].
  destruct (Client.channel client) as [[ch|]|[|]]; shrink; [|done..].
  destruct (Client.async_get_current_program client) as [[prg|]|[|]];
    shrink; [| |done..].
  all: destruct (Client.async_get_current_program_image client 800)
         as [url|[|]];
       [destruct (str_truthy url);
        [|destruct (Client.get_current_channel_image client 800) as [?|[|]]]
       |..].
  all: try destruct (dict_truthy (Some prg)); cbn [andb].
  all: try (destruct (decide (cpr = py_get prg "name"))
              as [Heq|Hne];
            [rewrite (bool_decide_eq_false_2 _ (λ H, H Heq))
            |rewrite (bool_decide_eq_true_2 _ Hne)]).
  all: shrink; try done.
  all: try destruct (bool_decide (pyteleloisirs.get_remaining_time tl1 prg
                                  ≠ rem)); shrink.
  all: rewrite ?(bool_decide_eq_false_2 (py_get prg "name" ≠ py_get prg "name"))
         by (intros Hn; by apply Hn).
  all: try (rewrite (bool_decide_eq_false_2 _ (λ H, H Heq))).
  all: shrink; try done.
Qed.

(** A returned update forgets the state it found: starting from any
    other state, as a command may have left it, the update ends in the
    same entity. *)
Theorem async_update_forgets_state client tl now w s :
  (async_update client tl now w).1 = Return tt →
  async_update client tl now
    {| self := set_state s (self w); calls := calls w |}
  = async_update client tl now w.
Proof.
  destruct (refresh_state_frame client) as (o & l & Hf).
  destruct w as [t cs].
  destruct t as [mu nm src sta chl cch cpr dur rem img upd].
  unfold_update. rewrite !Hf. shrink.
  destruct o as [st|[|]]; shrink; [|done..].
  intros _.
  destruct (Client.get_channels client) as [chs|[|]]; shrink; [|done..].
  destruct (Client.channel client) as [[ch|]|[|]]; shrink; done.
Qed.

(** The update returns normally unless the client raises something else
    than a connection error. *)
Theorem async_update_returns client tl now w :
  Client.media_state client ≠ Raise OtherError →
  Client.is_on client ≠ Raise OtherError →
  Client.get_channels client ≠ Raise OtherError →
  Client.channel client ≠ Raise OtherError →
  Client.async_get_current_program client ≠ Raise OtherError →
  Client.async_get_current_program_image client 800 ≠ Raise OtherError →
  Client.get_current_channel_image client 800 ≠ Raise OtherError →
  (async_update client tl now w).1 = Return tt.
Proof.
  intros Hms Hon Hg Hc Hp Hi Hl.
  assert ((refresh_state client w).1 ≠ Raise OtherError) as Hst.
  { unfold refresh_state, bind, call, ret.
    destruct (Client.media_state client) as [ms|[|]]; [|done..].
    repeat case_decide; [done..|].
    destruct (Client.is_on client) as [?|[|]]; cbn; congruence. }
  destruct (refresh_state_frame client) as (o & l & Hf).
  rewrite Hf in Hst. unfold_update. rewrite Hf.
  destruct o as [st|[|]]; shrink; try done.
  destruct (Client.get_channels client) as [chs|[|]]; shrink; try done.
  destruct (Client.channel client) as [[ch|]|[|]]; shrink; try done.
  destruct (Client.async_get_current_program client) as [[prg|]|[|]];
    shrink; try done.
  all: try destruct (dict_truthy (Some prg) && bool_decide _).
  all: try destruct (bool_decide (_ ≠ _)).
  all: destruct (Client.async_get_current_program_image client 800)
         as [url|[|]]; shrink; try done.
  all: destruct (str_truthy url); shrink; try done.
  all: destruct (Client.get_current_channel_image client 800)
         as [?|[|]]; shrink; done.
Qed.

(** ** The source list of a catalog *)


(** The source list has one name for each stored channel. *)
Theorem source_list_length (t : Tracker) :
  length <$> source_list t = Some (size (_channel_list t)).
Proof.
  assert (is_Some (source_list t)) as [names Hnames].
  { unfold source_list. apply mapM_is_Some, Forall_forall.
    intros k Hk. by apply elem_of_sorted_keys. }
  rewrite Hnames. cbn. f_equal.
  apply mapM_Some, Forall2_length in Hnames. rewrite <-Hnames.
  unfold sorted_keys.
  by rewrite merge_sort_Permutation, length_fmap, length_map_to_list.
Qed.

(** After the channel list is rebuilt from a catalog that gives no index
    twice, the source list is the names of the catalog's channels put in
    ascending order of the index. *)
Theorem source_list_of_catalog (chs : list Channel) (t : Tracker) :
  NoDup (index <$> chs) →
  source_list (set_channel_list (new_channel_list chs) t)
  = Some (name <$> channels_by_index chs).
Proof.
  intros Hnd. unfold source_list, channels_by_index. cbn.
  set (d := new_channel_list chs).
  set (sorted := merge_sort index_le chs).
  assert (sorted ≡ₚ chs) as Hperm by apply merge_sort_Permutation.
  assert (sorted_keys d = index <$> sorted) as ->.
  { apply (StronglySorted_unique Z.le).
    - apply (StronglySorted_merge_sort Z.le).
    - apply (StronglySorted_fmap _ index_le); [done|].
      assert (Transitive index_le) by (intros a b c; unfold index_le; lia).
      assert (Total index_le) by (intros a b; unfold index_le; lia).
      apply (StronglySorted_merge_sort index_le).
    - rewrite Hperm. unfold sorted_keys. rewrite merge_sort_Permutation.
      apply NoDup_Permutation; [apply NoDup_fst_map_to_list|done|].
      intros k. rewrite <-new_channel_list_is_Some, list_elem_of_fmap.
      split.
      + intros [[k' n] [-> Hin]]. apply elem_of_map_to_list in Hin.
        by exists n.
      + intros [n Hn]. exists (k, n). split; [done|].
        by apply elem_of_map_to_list. }
  apply mapM_Some, Forall2_fmap, Forall_Forall2_diag, Forall_forall.
  intros c Hc. apply new_channel_list_lookup; [done|].
  rewrite <-Hperm. by destruct c.
Qed.

(** ** The title *)

(** After an update that reaches the program of a tuned channel, the
    title is the channel, a colon and the name of the program, when the
    channel is not the empty string and the name is a string that is not
    empty: whatever the entity held before, and whatever the image
    queries answer. *)
Theorem media_title_after_update client tl now w st chs ch prg n :
  (refresh_state client w).1 = Return st →
  Client.get_channels client = Return chs →
  Client.channel client = Return (Some ch) →
  Client.async_get_current_program client = Return (Some prg) →
  ch ≠ EmptyString →
  py_get prg "name" = VStr n →
  n ≠ EmptyString →
  media_title (self (async_update client tl now w).2)
  = Some (ch +:+ ": " +:+ n).
Proof.
  intros Hst Hg Hc Hp Hch Hname Hn.
  assert (prg ≠ []) as Hne by (by intros ->).
  pose proof (async_update_program_attributes
                client tl now w st chs ch prg Hst Hg Hc Hp Hne) as Hprg.
  assert (_current_program (self (async_update client tl now w).2)
          = VStr n) as Hprogram.
  { cbv zeta in Hprg. case_decide; destruct Hprg as [-> _]; congruence. }
  assert (_current_channel (self (async_update client tl now w).2)
          = Some ch) as Hchannel.
  { clear Hprg Hprogram. run_update_in client w r Hr; try done.
    rewrite Hg, Hc, Hp in Hr. repeat case_match; by simplify_eq. }
  unfold media_title. rewrite Hchannel, Hprogram. cbn.
  by rewrite !bool_decide_eq_true_2.
Qed.

(** ** Setting up the platform *)


(** * The further properties on the example devices *)

(** The box is on and idle, without a program image: the power and the
    channel image are both asked. *)
Lemma async_update_conditional_queries_witness :
  let box := device None true (Some "TF1") (Some news) None in
  let l := [CallMediaState; CallIsOn; CallGetChannels; CallChannel;
            CallGetCurrentProgram; CallGetCurrentProgramImage 800;
            CallGetCurrentChannelImage 800] in
  calls (async_update box (guide 900) 100 fresh).2 = calls fresh ++ l ∧
  (∃ ms, Client.media_state box = Return ms ∧
         ms ≠ Some "PLAY" ∧ ms ≠ Some "PAUSE") ∧
  (∃ url, Client.async_get_current_program_image box 800 = Return url ∧
          str_truthy url = false).
Proof.
  intros box l.
  assert (calls (async_update box (guide 900) 100 fresh).2 = calls fresh ++ l)
    as Hcalls by reflexivity.
  split; [exact Hcalls|].
  destruct (async_update_conditional_queries box (guide 900) 100 fresh l
              Hcalls) as [Hpower Himage].
  split; [apply Hpower|apply Himage]; subst l; set_solver.
Defined.

(** A catalog that lists index 2 twice: the later name is stored. *)
Lemma new_channel_list_last_wins_witness :
  let renamed := {| index := 2; name := "France 2 HD" |} in
  new_channel_list (catalog ++ [renamed]) !! 2 = Some "France 2 HD".
Proof.
  intros renamed.
  apply (new_channel_list_last_wins catalog [] renamed).
  intros c' Hin. by apply elem_of_nil in Hin.
Defined.

(** A film follows the news: the stored channel list is the catalog's
    and the source is the tuned channel. *)
Lemma async_update_stores_catalog_and_channel_witness :
  let w' := (async_update (playing film) (guide 800) 200 watching_news).2 in
  (refresh_state (playing film) watching_news).1 = Return STATE_PLAYING ∧
  Client.get_channels (playing film) = Return catalog ∧
  _channel_list (self w') = new_channel_list catalog ∧
  source (self w') = Some "TF1".
Proof.
  intros w'. split; [reflexivity|]. split; [reflexivity|].
  destruct (async_update_stores_catalog_and_channel (playing film)
              (guide 800) 200 watching_news STATE_PLAYING catalog)
    as (Hlist & _ & Hsource); [reflexivity..|].
  split; [exact Hlist|]. apply Hsource. reflexivity.
Defined.

(** The entity was turned off by a command while the box plays: the
    update ends as if the command had not been given. *)
Lemma async_update_forgets_state_witness :
  (async_update (playing news) (guide 800) 200 watching_news).1 = Return tt ∧
  async_update (playing news) (guide 800) 200
    {| self := set_state (Some STATE_OFF) (self watching_news);
       calls := calls watching_news |}
  = async_update (playing news) (guide 800) 200 watching_news.
Proof.
  split; [reflexivity|].
  apply (async_update_forgets_state (playing news) (guide 800) 200
           watching_news (Some STATE_OFF)).
  reflexivity.
Defined.

(** The box cannot be reached: nothing but connection errors, and the
    update returns. *)
Lemma async_update_returns_witness :
  Client.media_state unreachable = Raise ConnectionError ∧
  (async_update unreachable (guide 800) 200 watching_news).1 = Return tt.
Proof.
  split; [reflexivity|].
  apply (async_update_returns unreachable (guide 800) 200 watching_news);
    cbn; discriminate.
Defined.

(** The first update, the box playing the news on TF1. *)
Lemma media_title_after_update_witness :
  media_title (self (async_update (playing news) (guide 900) 100 fresh).2)
  = Some "TF1: News".
Proof.
  apply (media_title_after_update (playing news) (guide 900) 100 fresh
           STATE_PLAYING catalog "TF1" news "News");
    [reflexivity..|discriminate|reflexivity|discriminate].
Defined.


(** The catalog lists France 2 before TF1. *)
Lemma source_list_of_catalog_witness :
  NoDup (index <$> catalog) ∧
  source_list (set_channel_list (new_channel_list catalog) (init DEFAULT_NAME))
  = Some ["TF1"; "France 2"; "France 3"].
Proof.
  assert (NoDup (index <$> catalog)) as Hnd by compute_done.
  split; [exact Hnd|].
  rewrite (source_list_of_catalog catalog (init DEFAULT_NAME) Hnd).
  reflexivity.
Defined.
